(** * Deletion probes of the runtime security agent (rmdir.h)

    A shallow embedding of the three eBPF programs of
    [pkg/security/ebpf/c/rmdir.h]: the syscall entry probe
    [SYSCALL_KPROBE0(rmdir)], the hook [kprobe__security_inode_rmdir] and the
    return probe [SYSCALL_KRETPROBE(rmdir)].

    The programs run to completion on the thread that issued the syscall.
    Each one is a function of the kernel-side state it touches (the table of
    in-flight syscalls, the per-mount discarder revisions) and it records, in
    order, every call it makes to a helper that lives outside the file. *)

From stdpp Require Import gmap list.
From Stdlib Require Import ZArith Lia Sorted.

Local Open Scope Z_scope.

(** ** Data *)

(** [struct path_key_t]: the fields the probes read and write. *)
Record path_key_t := { ino : Z; mount_id : Z; path_id : Z }.

(** [struct policy_t]: only [mode] is consulted here. *)
Record policy_t := { mode : Z }.

(** The per-syscall member of the cache entry: the probes use
    [path_key] and [overlay_numlower] of the members [rmdir] and [unlink]. *)
Record file_member_t := { path_key : path_key_t; overlay_numlower : Z }.

(** Modelled from the spec: [struct syscall_cache_t] is declared in
    syscalls.h, which is not among the sources.  The spec gives a
    SyscallState one [kind], one [filter_mode], one [identity] and one
    [overlay_depth]; accordingly the members [rmdir] and [unlink] that
    rmdir.h names are two views of one storage ([member]), as members of a C
    union that start with the same fields are. *)
Record syscall_cache_t :=
  { type : Z; policy : policy_t; member : file_member_t }.

Definition rmdir (s : syscall_cache_t) : file_member_t := member s.
Definition unlink (s : syscall_cache_t) : file_member_t := member s.

Definition set_path_key (k : path_key_t) (s : syscall_cache_t) : syscall_cache_t :=
  {| type := type s; policy := policy s;
     member := {| path_key := k; overlay_numlower := overlay_numlower (member s) |} |}.

Definition set_overlay_numlower (n : Z) (s : syscall_cache_t) : syscall_cache_t :=
  {| type := type s; policy := policy s;
     member := {| path_key := path_key (member s); overlay_numlower := n |} |}.

(** [syscall->rmdir.path_key = k] and its siblings. *)
Definition set_rmdir_path_key := set_path_key.
Definition set_unlink_path_key := set_path_key.
Definition set_rmdir_overlay_numlower := set_overlay_numlower.
Definition set_unlink_overlay_numlower := set_overlay_numlower.

(** [struct path_key_t key = {}]. *)
Definition zero_path_key : path_key_t := {| ino := 0; mount_id := 0; path_id := 0 |}.

Definition zero_member : file_member_t :=
  {| path_key := zero_path_key; overlay_numlower := 0 |}.

(** [struct file_t], as initialised by the return probe. *)
Record file_t :=
  { inode : Z; file_mount_id : Z; file_overlay_numlower : Z; file_path_id : Z }.

(** [struct syscall_t]. *)
Record syscall_t := { retval : Z }.

(** [struct rmdir_event_t].  The header and the process and container blocks
    are declared outside the file and never inspected by it: each is kept as
    one opaque word, zero when the initialiser leaves it out. *)
Record rmdir_event_t :=
  { event : Z;
    process : Z;
    container : Z;
    syscall : syscall_t;
    file : file_t;
    discarder_revision : Z;
    padding : Z }.

(** The part of [struct pt_regs] the probes read. *)
Record pt_regs := { PT_REGS_PARM2 : Z; PT_REGS_RC : Z }.

Definition NULL : Z := 0.

(** C truth of an integer. *)
Definition c_true (x : Z) : bool := negb (x =? 0).

(** [!x] on an [int]. *)
Definition c_not (x : Z) : Z := if x =? 0 then 1 else 0.

(** [int retval = PT_REGS_RC(ctx)]: the register narrowed to a signed
    32-bit integer. *)
Definition int_of_reg (r : Z) : Z := (r + 2 ^ 31) mod 2 ^ 32 - 2 ^ 31.

(** ** What rmdir.h takes from elsewhere *)

(** Constants and the macro [IS_UNHANDLED_ERROR], all defined in headers
    that are not among the sources: they are parameters. *)
Class Constants :=
  { SYSCALL_RMDIR : Z;
    SYSCALL_UNLINK : Z;
    EVENT_RMDIR : Z;
    EVENT_UNLINK : Z;
    NO_FILTER : Z;
    DENTRY_DISCARDED : Z;
    IS_UNHANDLED_ERROR : Z -> bool }.

(** The two syscall types are distinct non-zero tags: the [switch] of the
    hook has a case for each, and a zero tag matches no mask. *)
Class ConstantsOK `{Constants} : Prop :=
  { SYSCALL_RMDIR_pos : 0 < SYSCALL_RMDIR;
    SYSCALL_UNLINK_pos : 0 < SYSCALL_UNLINK;
    SYSCALL_RMDIR_UNLINK : SYSCALL_RMDIR <> SYSCALL_UNLINK }.

(** The answers of the helpers the probes call, as seen from one probe
    invocation.  [fetch_policy] stands for the policy subsystem that
    populates [policy] when the entry is created. *)
Class Collaborators :=
  { fetch_policy : Z -> policy_t;
    set_path_key_inode : Z -> path_key_t -> Z -> path_key_t;
    get_overlay_numlower : Z -> Z;
    discarded_by_process : Z -> Z -> Z;
    resolve_dentry : Z -> path_key_t -> Z -> Z;
    is_event_enabled : Z -> Z;
    fill_process_context : Z * Z;
    fill_container_context : Z -> Z }.

(** One record per call to a helper, in program order. *)
Inductive call :=
| Call_set_path_key_inode (dentry : Z) (invalidate : Z)
| Call_get_overlay_numlower (dentry : Z)
| Call_discarded_by_process (mode event_type : Z)
| Call_invalidate_inode (mount_id ino flag : Z)
| Call_resolve_dentry (dentry : Z) (key : path_key_t) (event_type : Z)
| Call_is_event_enabled (event_type : Z)
| Call_bump_discarder_revision (mount_id : Z)
| Call_fill_process_context
| Call_fill_container_context (entry : Z)
| Call_send_event (event_type : Z) (ev : rmdir_event_t).

(** ** Kernel-side state *)

(** [syscalls]: the table of in-flight syscalls, keyed by thread;
    [discarder_revisions]: one counter per mount; [trace]: the helper calls
    made so far, oldest first. *)
Record world :=
  { syscalls : gmap Z syscall_cache_t;
    discarder_revisions : gmap Z Z;
    trace : list call }.

Definition M (A : Type) : Type := world -> A * world.

Definition ret {A} (a : A) : M A := fun w => (a, w).

Definition bind {A B} (m : M A) (k : A -> M B) : M B :=
  fun w => let (a, w') := m w in k a w'.

Declare Scope probe_scope.
Delimit Scope probe_scope with probe.
Notation "x <- m ;; k" := (bind m (fun x => k))
  (at level 100, m at next level, right associativity) : probe_scope.
Notation "m ;;; k" := (bind m (fun _ => k))
  (at level 100, right associativity) : probe_scope.

Local Open Scope probe_scope.

Definition log (c : call) : M unit :=
  fun w => (tt, {| syscalls := syscalls w;
                   discarder_revisions := discarder_revisions w;
                   trace := trace w ++ [c] |}).

Definition set_syscalls (t : gmap Z syscall_cache_t) : M unit :=
  fun w => (tt, {| syscalls := t;
                   discarder_revisions := discarder_revisions w;
                   trace := trace w |}).

Definition set_revisions (r : gmap Z Z) : M unit :=
  fun w => (tt, {| syscalls := syscalls w;
                   discarder_revisions := r;
                   trace := trace w |}).

(** ** The registry of in-flight syscalls *)

Section Registry.
Context `{K : Collaborators}.

(** Modelled from the spec: [cache_syscall] is defined in syscalls.h, not
    among the sources.  Spec 4.1/4.2: [create(thread, kind)] fails if an
    entry is already pending for the thread, and the filter mode is
    populated by the policy subsystem at creation. *)
Definition cache_syscall (tid : Z) (s : syscall_cache_t) (event_type : Z) : M unit :=
  fun w =>
    match syscalls w !! tid with
    | Some _ => (tt, w)
    | None =>
        set_syscalls
          (<[tid := {| type := type s; policy := fetch_policy event_type;
                       member := member s |}]> (syscalls w)) w
    end.

(** Modelled from the spec: [peek_syscall] is defined in syscalls.h.
    Spec 4.1: [peek(thread, kind_mask)] returns the pending state when its
    kind is in the bitmask, and leaves the table alone. *)
Definition peek_syscall (tid : Z) (mask : Z) : M (option syscall_cache_t) :=
  fun w =>
    match syscalls w !! tid with
    | Some s => if Z.land (type s) mask >? 0 then (Some s, w) else (None, w)
    | None => (None, w)
    end.

(** Modelled from the spec: [pop_syscall] is defined in syscalls.h.
    Spec 4.1: [pop(thread, kind_mask)] removes the pending state and
    returns it when its kind is in the bitmask. *)
Definition pop_syscall (tid : Z) (mask : Z) : M (option syscall_cache_t) :=
  fun w =>
    match syscalls w !! tid with
    | Some s =>
        if Z.land (type s) mask >? 0
        then (Some s, snd (set_syscalls (delete tid (syscalls w)) w))
        else (None, w)
    | None => (None, w)
    end.

(** [peek_syscall] returns a pointer into the table: a store through it
    changes the entry of the thread. *)
Definition store_syscall (tid : Z) (s : syscall_cache_t) : M unit :=
  fun w => set_syscalls (<[tid := s]> (syscalls w)) w.
End Registry.

(** ** Helper calls *)

Section Helpers.
Context `{K : Collaborators}.

Definition do_set_path_key_inode (dentry : Z) (k : path_key_t) (invalidate : Z)
  : M path_key_t :=
  log (Call_set_path_key_inode dentry invalidate) ;;;
  ret (set_path_key_inode dentry k invalidate).

Definition do_get_overlay_numlower (dentry : Z) : M Z :=
  log (Call_get_overlay_numlower dentry) ;;; ret (get_overlay_numlower dentry).

Definition do_discarded_by_process (m event_type : Z) : M Z :=
  log (Call_discarded_by_process m event_type) ;;;
  ret (discarded_by_process m event_type).

Definition invalidate_inode (mnt i flag : Z) : M unit :=
  log (Call_invalidate_inode mnt i flag).

Definition do_resolve_dentry (dentry : Z) (key : path_key_t) (event_type : Z) : M Z :=
  log (Call_resolve_dentry dentry key event_type) ;;;
  ret (resolve_dentry dentry key event_type).

Definition do_is_event_enabled (event_type : Z) : M Z :=
  log (Call_is_event_enabled event_type) ;;; ret (is_event_enabled event_type).

Definition do_fill_process_context : M (Z * Z) :=
  log Call_fill_process_context ;;; ret fill_process_context.

Definition do_fill_container_context (entry : Z) : M Z :=
  log (Call_fill_container_context entry) ;;; ret (fill_container_context entry).

Definition send_event (event_type : Z) (ev : rmdir_event_t) : M unit :=
  log (Call_send_event event_type ev).

(** The current revision of a mount; a mount never bumped is at 0. *)
Definition revision_of (w : world) (mnt : Z) : Z :=
  default 0 (discarder_revisions w !! mnt).

(** Modelled from the spec: [bump_discarder_revision] is defined outside
    rmdir.h.  Spec 3 and 8: a monotonically bumped counter scoped to the
    mount, which never decreases; the call increments it and returns the
    new value ([discarder_revision] = previous value + 1).  The spec gives
    the counter no behaviour at the top of a range, and none is modelled. *)
Definition bump_discarder_revision (mnt : Z) : M Z :=
  fun w =>
    let r := revision_of w mnt + 1 in
    (log (Call_bump_discarder_revision mnt) ;;;
     set_revisions (<[mnt := r]> (discarder_revisions w)) ;;;
     ret r) w.
End Helpers.

(** ** The three probes *)

Section Probes.
Context `{C : Constants} `{K : Collaborators}.

(** [SYSCALL_KPROBE0(rmdir)], lines 16-24. *)
Definition SYSCALL_KPROBE0_rmdir (tid : Z) : M Z :=
  let syscall :=
    {| type := SYSCALL_RMDIR; policy := {| mode := 0 |}; member := zero_member |} in
  cache_syscall tid syscall EVENT_RMDIR ;;;
  ret 0.

(** The [switch] of the hook, lines 36-71: [None] when a case returns,
    otherwise the entry as stored together with [event_type], [key] and
    [dentry] as the code after the [switch] finds them. *)
Definition resolve_switch (tid : Z) (ctx : pt_regs) (syscall : syscall_cache_t)
  : M (option (syscall_cache_t * Z * path_key_t * Z)) :=
  if type syscall =? SYSCALL_RMDIR then
    if c_true (ino (path_key (rmdir syscall))) then ret None
    else
      let dentry := PT_REGS_PARM2 ctx in
      k <- do_set_path_key_inode dentry (path_key (rmdir syscall)) 1 ;;
      let syscall := set_rmdir_path_key k syscall in
      store_syscall tid syscall ;;;
      n <- do_get_overlay_numlower dentry ;;
      let syscall := set_rmdir_overlay_numlower n syscall in
      store_syscall tid syscall ;;;
      ret (Some (syscall, EVENT_RMDIR, path_key (rmdir syscall), dentry))
  else if type syscall =? SYSCALL_UNLINK then
    if c_true (ino (path_key (unlink syscall))) then ret None
    else
      let dentry := PT_REGS_PARM2 ctx in
      k <- do_set_path_key_inode dentry (path_key (unlink syscall)) 1 ;;
      let syscall := set_unlink_path_key k syscall in
      store_syscall tid syscall ;;;
      n <- do_get_overlay_numlower dentry ;;
      let syscall := set_unlink_overlay_numlower n syscall in
      store_syscall tid syscall ;;;
      ret (Some (syscall, EVENT_UNLINK, path_key (unlink syscall), dentry))
  else ret (Some (syscall, 0, zero_path_key, NULL)).

(** [kprobe__security_inode_rmdir], lines 26-89. *)
Definition kprobe__security_inode_rmdir (tid : Z) (ctx : pt_regs) : M Z :=
  syscall <- peek_syscall tid (Z.lor SYSCALL_RMDIR SYSCALL_UNLINK) ;;
  match syscall with
  | None => ret 0
  | Some syscall =>
      sw <- resolve_switch tid ctx syscall ;;
      match sw with
      | None => ret 0
      | Some (syscall, event_type, key, dentry) =>
          d <- do_discarded_by_process (mode (policy syscall)) event_type ;;
          if c_true d then
            invalidate_inode (mount_id key) (ino key) 1 ;;;
            ret 0
          else if negb (dentry =? NULL) then
            r <- do_resolve_dentry dentry key
                   (if negb (mode (policy syscall) =? NO_FILTER)
                    then event_type else 0) ;;
            (if r =? DENTRY_DISCARDED then
               invalidate_inode (mount_id key) (ino key) 1 ;;;
               _ <- pop_syscall tid (type syscall) ;;
               ret 0
             else ret 0)
          else ret 0
      end
  end.

(** [SYSCALL_KRETPROBE(rmdir)], lines 91-125. *)
Definition SYSCALL_KRETPROBE_rmdir (tid : Z) (ctx : pt_regs) : M Z :=
  syscall <- pop_syscall tid (Z.lor SYSCALL_RMDIR SYSCALL_UNLINK) ;;
  match syscall with
  | None => ret 0
  | Some syscall =>
      let retval := int_of_reg (PT_REGS_RC ctx) in
      if IS_UNHANDLED_ERROR retval then
        invalidate_inode (mount_id (path_key (rmdir syscall)))
                         (ino (path_key (rmdir syscall))) 0 ;;;
        ret 0
      else
        enabled <- do_is_event_enabled EVENT_RMDIR ;;
        (if c_true enabled then
           rev <- bump_discarder_revision (mount_id (path_key (rmdir syscall))) ;;
           p <- do_fill_process_context ;;
           c <- do_fill_container_context (fst p) ;;
           send_event EVENT_RMDIR
             {| event := 0;
                process := snd p;
                container := c;
                syscall := {| retval := retval |};
                file := {| inode := ino (path_key (rmdir syscall));
                           file_mount_id := mount_id (path_key (rmdir syscall));
                           file_overlay_numlower := overlay_numlower (rmdir syscall);
                           file_path_id := path_id (path_key (rmdir syscall)) |};
                discarder_revision := rev;
                padding := 0 |}
         else ret tt) ;;;
        invalidate_inode (mount_id (path_key (rmdir syscall)))
                         (ino (path_key (rmdir syscall))) (c_not enabled) ;;;
        ret 0
  end.
End Probes.

(** ** Observations on a run *)

(** The helper calls made between two worlds of one run. *)
Definition calls_since (w w' : world) : list call :=
  drop (length (trace w)) (trace w').

(** The events handed to the sink, with their kind. *)
Definition sent_events (l : list call) : list (Z * rmdir_event_t) :=
  omap (fun c => match c with Call_send_event k e => Some (k, e) | _ => None end) l.

(** The invalidations of the inode cache: mount, inode, flag. *)
Definition invalidations (l : list call) : list (Z * Z * Z) :=
  omap (fun c => match c with
                 | Call_invalidate_inode m i f => Some (m, i, f)
                 | _ => None end) l.

(** The mounts whose discarder revision was bumped. *)
Definition bumps (l : list call) : list Z :=
  omap (fun c => match c with Call_bump_discarder_revision m => Some m | _ => None end) l.

(** The evaluations of the process discard filter: mode, event kind. *)
Definition discard_checks (l : list call) : list (Z * Z) :=
  omap (fun c => match c with
                 | Call_discarded_by_process m k => Some (m, k)
                 | _ => None end) l.

(** The path resolutions: handle, key, effective event kind. *)
Definition path_resolutions (l : list call) : list (Z * path_key_t * Z) :=
  omap (fun c => match c with
                 | Call_resolve_dentry d key k => Some (d, key, k)
                 | _ => None end) l.

(** The event kinds whose enablement was asked. *)
Definition enabled_checks (l : list call) : list Z :=
  omap (fun c => match c with Call_is_event_enabled k => Some k | _ => None end) l.


Section Expected_calls.
Context `{C : Constants} `{K : Collaborators}.

(** The event the return probe builds from a popped entry. *)
Definition event_of (s : syscall_cache_t) (rv rev : Z) : rmdir_event_t :=
  {| event := 0;
     process := snd fill_process_context;
     container := fill_container_context (fst fill_process_context);
     syscall := {| retval := rv |};
     file := {| inode := ino (path_key (rmdir s));
                file_mount_id := mount_id (path_key (rmdir s));
                file_overlay_numlower := overlay_numlower (rmdir s);
                file_path_id := path_id (path_key (rmdir s)) |};
     discarder_revision := rev;
     padding := 0 |}.

(** The helper calls of one run of the return probe on a popped entry. *)
Definition return_calls (s : syscall_cache_t) (rv rev : Z) : list call :=
  let m := mount_id (path_key (rmdir s)) in
  let i := ino (path_key (rmdir s)) in
  let en := is_event_enabled EVENT_RMDIR in
  if IS_UNHANDLED_ERROR rv then [Call_invalidate_inode m i 0]
  else
    Call_is_event_enabled EVENT_RMDIR ::
    (if c_true en
     then [Call_bump_discarder_revision m; Call_fill_process_context;
           Call_fill_container_context (fst fill_process_context);
           Call_send_event EVENT_RMDIR (event_of s rv rev)]
     else []) ++
    [Call_invalidate_inode m i (c_not en)].

(** The entry as the hook leaves it once the identity is resolved from
    handle [d]. *)
Definition frozen (s : syscall_cache_t) (d : Z) : syscall_cache_t :=
  set_overlay_numlower (get_overlay_numlower d)
    (set_path_key (set_path_key_inode d (path_key (member s)) 1) s).

(** The event kind the hook derives from the type of a deletion entry. *)
Definition event_type_of (s : syscall_cache_t) : Z :=
  if type s =? SYSCALL_RMDIR then EVENT_RMDIR else EVENT_UNLINK.

(** The event kind handed to path resolution. *)
Definition effective_event_type (s : syscall_cache_t) : Z :=
  if mode (policy s) =? NO_FILTER then 0 else event_type_of s.

Definition process_discards (s : syscall_cache_t) : bool :=
  c_true (discarded_by_process (mode (policy s)) (event_type_of s)).

Definition path_discards (s : syscall_cache_t) (d : Z) : bool :=
  negb (d =? NULL) &&
  (resolve_dentry d (path_key (member (frozen s d))) (effective_event_type s)
   =? DENTRY_DISCARDED).

(** The helper calls of one run of the hook on an entry whose identity is
    not resolved yet. *)
Definition hook_calls (s : syscall_cache_t) (d : Z) : list call :=
  let k := path_key (member (frozen s d)) in
  [Call_set_path_key_inode d 1; Call_get_overlay_numlower d;
   Call_discarded_by_process (mode (policy s)) (event_type_of s)] ++
  (if process_discards s then [Call_invalidate_inode (mount_id k) (ino k) 1]
   else if d =? NULL then []
   else Call_resolve_dentry d k (effective_event_type s) ::
        (if path_discards s d then [Call_invalidate_inode (mount_id k) (ino k) 1]
         else [])).
End Expected_calls.

(** ** Sequences of probe runs *)

(** One probe firing on a thread. *)
Inductive probe_call :=
| Entry (tid : Z)
| Hook (tid : Z) (ctx : pt_regs)
| Return (tid : Z) (ctx : pt_regs).

(** The world after one probe has run, with the answers [K] of the helpers
    at that time. *)
Definition step `{C : Constants} (K : Collaborators) (p : probe_call) (w : world)
  : world :=
  match p with
  | Entry tid => snd (SYSCALL_KPROBE0_rmdir tid w)
  | Hook tid ctx => snd (kprobe__security_inode_rmdir tid ctx w)
  | Return tid ctx => snd (SYSCALL_KRETPROBE_rmdir tid ctx w)
  end.

(** Any interleaving of probe runs of any threads, each with the helpers'
    answers of its moment. *)
Fixpoint run `{C : Constants} (ps : list (Collaborators * probe_call)) (w : world)
  : world :=
  match ps with
  | [] => w
  | (K, p) :: ps => run ps (step K p w)
  end.


(** The number of runs of the return probe in a sequence. *)
Fixpoint returns (ps : list (Collaborators * probe_call)) : nat :=
  match ps with
  | [] => 0
  | (_, Return _ _) :: ps => S (returns ps)
  | _ :: ps => returns ps
  end.

(** The mounts named by the events sent, oldest first. *)
Definition event_mounts (l : list call) : list Z :=
  map (fun e => file_mount_id (file (snd e))) (sent_events l).

(** ** Sample constants, helpers and worlds

    Concrete values at which the statements below are exercised. *)

Definition ex_constants : Constants :=
  {| SYSCALL_RMDIR := 8;
     SYSCALL_UNLINK := 4;
     EVENT_RMDIR := 7;
     EVENT_UNLINK := 6;
     NO_FILTER := 0;
     DENTRY_DISCARDED := 1;
     IS_UNHANDLED_ERROR := fun r => (r <? 0) && negb (r =? -13) && negb (r =? -1) |}.

(** Helpers that resolve every handle to inode 100 (keeping the mount of
    the key), with the given answers of the process discard filter, of path
    resolution and of the enablement switch; the policy mode is [pmode]. *)
Definition ex_kernel (pmode discard path enabled : Z) : Collaborators :=
  {| fetch_policy := fun _ => {| mode := pmode |};
     set_path_key_inode :=
       fun _ k _ => {| ino := 100; mount_id := mount_id k; path_id := 1 |};
     get_overlay_numlower := fun _ => 2;
     discarded_by_process := fun _ _ => discard;
     resolve_dentry := fun _ _ _ => path;
     is_event_enabled := fun _ => enabled;
     fill_process_context := (11, 12);
     fill_container_context := fun _ => 13 |}.

Definition ex_empty : world :=
  {| syscalls := ∅; discarder_revisions := ∅; trace := [] |}.

(** An entry of type [ty] on mount 5, identity not yet resolved. *)
Definition ex_fresh_entry (ty pmode : Z) : syscall_cache_t :=
  {| type := ty; policy := {| mode := pmode |};
     member := {| path_key := {| ino := 0; mount_id := 5; path_id := 0 |};
                  overlay_numlower := 0 |} |}.

(** An entry of type [ty] resolved to (mount 5, inode 100). *)
Definition ex_resolved_entry (ty pmode : Z) : syscall_cache_t :=
  {| type := ty; policy := {| mode := pmode |};
     member := {| path_key := {| ino := 100; mount_id := 5; path_id := 1 |};
                  overlay_numlower := 2 |} |}.

(** Thread 1 holds entry [s]; mount 5 is at revision [rev]. *)
Definition ex_world (s : syscall_cache_t) (rev : Z) : world :=
  {| syscalls := {[ 1 := s ]}; discarder_revisions := {[ 5 := rev ]}; trace := [] |}.

(** Registers at a probe: a non-null handle in the second parameter and
    [rc] in the return register. *)
Definition ex_ctx (rc : Z) : pt_regs := {| PT_REGS_PARM2 := 4096; PT_REGS_RC := rc |}.

(** The return register holding -2 as a 64-bit word. *)
Definition ex_rc_error : Z := 2 ^ 64 - 2.

(** An entry of some other syscall (type 1) on thread 1, and a deletion
    entry on thread 2. *)
Definition ex_two_threads : world :=
  {| syscalls := {[ 1 := ex_fresh_entry 1 0; 2 := ex_resolved_entry 4 0 ]};
     discarder_revisions := {[ 5 := 41 ]}; trace := [] |}.

(** The return register holding -13 as a 64-bit word. *)
Definition ex_rc_eacces : Z := 2 ^ 64 - 13.

(** ** Basic facts *)

Lemma calls_since_app (w w' : world) (l : list call) :
  trace w' = trace w ++ l -> calls_since w w' = l.
Proof. intros E. unfold calls_since. rewrite E. apply drop_app_length. Qed.

Lemma calls_since_refl (w : world) : calls_since w w = [].
Proof. apply calls_since_app. symmetry. apply app_nil_r. Qed.

Lemma land_lor_l (a b : Z) : 0 < a -> 0 <= b -> (Z.land a (Z.lor a b) >? 0) = true.
Proof.
  intros Ha Hb.
  assert (E : Z.land a (Z.lor a b) = a).
  { apply Z.bits_inj'. intros n Hn.
    rewrite Z.land_spec, Z.lor_spec. destruct (Z.testbit a n); reflexivity. }
  rewrite E. apply Z.gtb_lt. exact Ha.
Qed.

Lemma land_lor_r (a b : Z) : 0 <= a -> 0 < b -> (Z.land b (Z.lor a b) >? 0) = true.
Proof.
  intros Ha Hb. rewrite Z.lor_comm. apply land_lor_l; assumption.
Qed.

Lemma land_diag_pos (a : Z) : 0 < a -> (Z.land a a >? 0) = true.
Proof. intros Ha. rewrite Z.land_diag. apply Z.gtb_lt. exact Ha. Qed.

(** Unfolding of the monad and of the helper calls. *)
Ltac run_probe :=
  cbv beta iota zeta delta
    [SYSCALL_KPROBE0_rmdir kprobe__security_inode_rmdir SYSCALL_KRETPROBE_rmdir
     resolve_switch cache_syscall store_syscall
     bind ret log set_syscalls set_revisions
     do_set_path_key_inode do_get_overlay_numlower do_discarded_by_process
     invalidate_inode do_resolve_dentry do_is_event_enabled
     do_fill_process_context do_fill_container_context send_event
     bump_discarder_revision] in *;
  cbn [fst snd syscalls discarder_revisions trace] in *.

Section Registry_facts.

Lemma pop_syscall_Some (tid mask : Z) (w : world) (s : syscall_cache_t) :
  fst (pop_syscall tid mask w) = Some s ->
  syscalls w !! tid = Some s /\
  (Z.land (type s) mask >? 0) = true /\
  pop_syscall tid mask w =
    (Some s, {| syscalls := delete tid (syscalls w);
                discarder_revisions := discarder_revisions w;
                trace := trace w |}).
Proof.
  unfold pop_syscall, set_syscalls.
  destruct (syscalls w !! tid) as [s'|] eqn:E; cbn; [|discriminate].
  destruct (Z.land (type s') mask >? 0) eqn:Em; cbn; [|discriminate].
  intros [= ->]. auto.
Qed.

Lemma pop_syscall_pending (tid mask : Z) (w : world) (s : syscall_cache_t) :
  syscalls w !! tid = Some s ->
  (Z.land (type s) mask >? 0) = true ->
  pop_syscall tid mask w =
    (Some s, {| syscalls := delete tid (syscalls w);
                discarder_revisions := discarder_revisions w;
                trace := trace w |}).
Proof. intros E Em. unfold pop_syscall, set_syscalls. rewrite E, Em. reflexivity. Qed.

Lemma pop_syscall_None (tid mask : Z) (w : world) :
  syscalls w !! tid = None -> pop_syscall tid mask w = (None, w).
Proof. intros E. unfold pop_syscall. rewrite E. reflexivity. Qed.

Lemma peek_syscall_pending (tid mask : Z) (w : world) (s : syscall_cache_t) :
  syscalls w !! tid = Some s ->
  (Z.land (type s) mask >? 0) = true ->
  peek_syscall tid mask w = (Some s, w).
Proof. intros E Em. unfold peek_syscall. rewrite E, Em. reflexivity. Qed.

Lemma peek_syscall_None (tid mask : Z) (w : world) :
  syscalls w !! tid = None -> peek_syscall tid mask w = (None, w).
Proof. intros E. unfold peek_syscall. rewrite E. reflexivity. Qed.
End Registry_facts.

(** ** Return values *)

Section Return_values.
Context `{C : Constants} `{K : Collaborators}.

(** C9: each of the three probes returns 0 on every path, whatever the
    thread, the registers and the kernel-side state are. *)
Theorem probes_return_zero (tid : Z) (ctx : pt_regs) (w : world) :
  fst (SYSCALL_KPROBE0_rmdir tid w) = 0 /\
  fst (kprobe__security_inode_rmdir tid ctx w) = 0 /\
  fst (SYSCALL_KRETPROBE_rmdir tid ctx w) = 0.
Proof.
  split; [|split].
  - run_probe. destruct (syscalls w !! tid); reflexivity.
  - run_probe. unfold peek_syscall, pop_syscall.
    destruct (syscalls w !! tid) as [s|]; [|reflexivity].
    destruct (Z.land (type s) _ >? 0); [|reflexivity].
    cbn [fst snd].
    repeat match goal with
           | |- context [if ?b then _ else _] => destruct b; cbn [fst snd syscalls]
           | |- context [match ?o with Some _ => _ | None => _ end] =>
               destruct o; cbn [fst snd syscalls]
           end; reflexivity.
  - run_probe. unfold pop_syscall.
    destruct (syscalls w !! tid) as [s|]; [|reflexivity].
    destruct (Z.land (type s) _ >? 0); [|reflexivity].
    cbn [fst snd].
    repeat match goal with
           | |- context [if ?b then _ else _] => destruct b; cbn [fst snd]
           end; reflexivity.
Qed.
End Return_values.

(** ** The return probe, run symbolically *)

Section Return_probe.
Context `{C : Constants} `{K : Collaborators}.

Lemma kretprobe_popped (tid : Z) (ctx : pt_regs) (w : world) (s : syscall_cache_t) :
  fst (pop_syscall tid (Z.lor SYSCALL_RMDIR SYSCALL_UNLINK) w) = Some s ->
  let m := mount_id (path_key (rmdir s)) in
  let rv := int_of_reg (PT_REGS_RC ctx) in
  let rev := revision_of w m + 1 in
  SYSCALL_KRETPROBE_rmdir tid ctx w =
    (0, {| syscalls := delete tid (syscalls w);
           discarder_revisions :=
             if IS_UNHANDLED_ERROR rv then discarder_revisions w
             else if c_true (is_event_enabled EVENT_RMDIR)
                  then <[m := rev]> (discarder_revisions w)
                  else discarder_revisions w;
           trace := trace w ++ return_calls s rv rev |}).
Proof.
  intros Hpop m rv rev.
  destruct (pop_syscall_Some _ _ _ _ Hpop) as (_ & _ & E).
  unfold SYSCALL_KRETPROBE_rmdir, bind at 1. rewrite E.
  unfold return_calls. fold m rv.
  destruct (IS_UNHANDLED_ERROR rv); [reflexivity|].
  run_probe. unfold revision_of, event_of. cbn [discarder_revisions].
  destruct (c_true (is_event_enabled EVENT_RMDIR)); cbn [fst snd trace app];
    rewrite <- ?app_assoc; reflexivity.
Qed.

Lemma kretprobe_nothing_pending (tid : Z) (ctx : pt_regs) (w : world) :
  fst (pop_syscall tid (Z.lor SYSCALL_RMDIR SYSCALL_UNLINK) w) = None ->
  SYSCALL_KRETPROBE_rmdir tid ctx w = (0, w).
Proof.
  unfold SYSCALL_KRETPROBE_rmdir, bind, pop_syscall.
  destruct (syscalls w !! tid) as [s|]; [|reflexivity].
  destruct (_ >? _); [discriminate|reflexivity].
Qed.

Lemma kretprobe_calls (tid : Z) (ctx : pt_regs) (w : world) (s : syscall_cache_t) :
  fst (pop_syscall tid (Z.lor SYSCALL_RMDIR SYSCALL_UNLINK) w) = Some s ->
  calls_since w (snd (SYSCALL_KRETPROBE_rmdir tid ctx w)) =
    return_calls s (int_of_reg (PT_REGS_RC ctx))
      (revision_of w (mount_id (path_key (rmdir s))) + 1).
Proof.
  intros Hpop. rewrite (kretprobe_popped _ ctx _ _ Hpop). cbn [snd].
  apply calls_since_app. reflexivity.
Qed.

(** C6: when the return code of a popped entry is an unhandled error, the
    return probe sends no event, bumps no discarder revision, and
    invalidates the inode cache once, for the identity of the entry and
    with flag 0. *)
Theorem error_suppresses_emission
    (tid : Z) (ctx : pt_regs) (w : world) (s : syscall_cache_t) :
  fst (pop_syscall tid (Z.lor SYSCALL_RMDIR SYSCALL_UNLINK) w) = Some s ->
  IS_UNHANDLED_ERROR (int_of_reg (PT_REGS_RC ctx)) = true ->
  let w' := snd (SYSCALL_KRETPROBE_rmdir tid ctx w) in
  sent_events (calls_since w w') = [] /\
  bumps (calls_since w w') = [] /\
  discarder_revisions w' = discarder_revisions w /\
  invalidations (calls_since w w') =
    [(mount_id (path_key (rmdir s)), ino (path_key (rmdir s)), 0)].
Proof.
  intros Hpop Herr w'. subst w'.
  rewrite (kretprobe_calls _ ctx _ _ Hpop).
  rewrite (kretprobe_popped _ ctx _ _ Hpop). cbn [snd discarder_revisions].
  unfold return_calls. rewrite Herr. repeat split.
Qed.

(** C4 (amended): on a run of the return probe that pops an entry whose
    return code is not an unhandled error, the inode cache is invalidated
    once for the identity of the entry, and the flag is the negation of
    the enablement test: 0 when an event was sent, 1 when none was. *)
Theorem exit_invalidates_with_negated_flag
    (tid : Z) (ctx : pt_regs) (w : world) (s : syscall_cache_t) :
  fst (pop_syscall tid (Z.lor SYSCALL_RMDIR SYSCALL_UNLINK) w) = Some s ->
  IS_UNHANDLED_ERROR (int_of_reg (PT_REGS_RC ctx)) = false ->
  let l := calls_since w (snd (SYSCALL_KRETPROBE_rmdir tid ctx w)) in
  let m := mount_id (path_key (rmdir s)) in
  let i := ino (path_key (rmdir s)) in
  invalidations l = [(m, i, c_not (is_event_enabled EVENT_RMDIR))] /\
  (is_event_enabled EVENT_RMDIR <> 0 ->
   length (sent_events l) = 1%nat /\ invalidations l = [(m, i, 0)]) /\
  (is_event_enabled EVENT_RMDIR = 0 ->
   sent_events l = [] /\ invalidations l = [(m, i, 1)]).
Proof.
  intros Hpop Herr l m i. subst l.
  rewrite (kretprobe_calls _ ctx _ _ Hpop).
  unfold return_calls. rewrite Herr. fold m i.
  unfold c_true, c_not.
  destruct (Z.eqb_spec (is_event_enabled EVENT_RMDIR) 0) as [E|E]; cbn.
  - split; [reflexivity|]. split; [intros; contradiction|]. intros _. split; reflexivity.
  - split; [reflexivity|]. split; [intros _; split; reflexivity|]. intros; contradiction.
Qed.
End Return_probe.

(** ** The return probe and the kind of the entry *)

Section Return_probe_kind.
Context `{C : Constants} `{K : Collaborators} {OK : ConstantsOK}.

Lemma deletion_types_match (ty : Z) :
  ty = SYSCALL_RMDIR \/ ty = SYSCALL_UNLINK ->
  (Z.land ty (Z.lor SYSCALL_RMDIR SYSCALL_UNLINK) >? 0) = true.
Proof.
  pose proof SYSCALL_RMDIR_pos. pose proof SYSCALL_UNLINK_pos.
  intros [-> | ->]; [apply land_lor_l | apply land_lor_r]; lia.
Qed.

Lemma pop_deletion_entry (tid : Z) (w : world) (s : syscall_cache_t) :
  syscalls w !! tid = Some s ->
  type s = SYSCALL_RMDIR \/ type s = SYSCALL_UNLINK ->
  fst (pop_syscall tid (Z.lor SYSCALL_RMDIR SYSCALL_UNLINK) w) = Some s.
Proof.
  intros E Hty. rewrite (pop_syscall_pending _ _ _ _ E); [reflexivity|].
  apply deletion_types_match, Hty.
Qed.


(** C5 (amended): an entry created by the entry probe and never seen by the
    hook is popped by the return probe as it stands, identity unset; the
    probe removes it and invalidates the inode cache once for the unset
    identity (mount 0, inode 0).  It sends one event (inode 0) and bumps
    the revision when the return code is not an unhandled error and the
    kind is enabled, and does neither otherwise. *)
Theorem unresolved_entry_is_popped_and_processed
    (tid : Z) (ctx : pt_regs) (w : world) :
  syscalls w !! tid = None ->
  let w1 := snd (SYSCALL_KPROBE0_rmdir tid w) in
  let s0 := {| type := SYSCALL_RMDIR; policy := fetch_policy EVENT_RMDIR;
               member := zero_member |} in
  let w2 := snd (SYSCALL_KRETPROBE_rmdir tid ctx w1) in
  let l := calls_since w1 w2 in
  let rv := int_of_reg (PT_REGS_RC ctx) in
  fst (pop_syscall tid (Z.lor SYSCALL_RMDIR SYSCALL_UNLINK) w1) = Some s0 /\
  syscalls w2 !! tid = None /\
  invalidations l =
    [(0, 0, if IS_UNHANDLED_ERROR rv then 0 else c_not (is_event_enabled EVENT_RMDIR))] /\
  (IS_UNHANDLED_ERROR rv = false -> is_event_enabled EVENT_RMDIR <> 0 ->
   sent_events l = [(EVENT_RMDIR, event_of s0 rv (revision_of w 0 + 1))] /\
   bumps l = [0]) /\
  (IS_UNHANDLED_ERROR rv = true \/ is_event_enabled EVENT_RMDIR = 0 ->
   sent_events l = [] /\ bumps l = []).
Proof.
  intros Hfree w1 s0 w2 l rv.
  assert (E1 : syscalls w1 !! tid = Some s0).
  { subst w1. run_probe. rewrite Hfree. cbn [snd syscalls].
    apply lookup_insert_eq. }
  assert (Hpop : fst (pop_syscall tid (Z.lor SYSCALL_RMDIR SYSCALL_UNLINK) w1) = Some s0).
  { apply pop_deletion_entry; [exact E1 | left; reflexivity]. }
  assert (Hrev : revision_of w1 0 = revision_of w 0).
  { subst w1. run_probe. rewrite Hfree. reflexivity. }
  split; [exact Hpop|].
  subst l w2. rewrite (kretprobe_calls _ ctx _ _ Hpop).
  rewrite (kretprobe_popped _ ctx _ _ Hpop). cbn [snd syscalls].
  split; [apply lookup_delete_eq|].
  unfold return_calls. fold rv. cbn [rmdir s0 member zero_member path_key
                                     zero_path_key mount_id ino].
  rewrite Hrev. unfold c_true, c_not.
  destruct (IS_UNHANDLED_ERROR rv); cbn.
  { split; [reflexivity|]. split; [discriminate|]. intros _; split; reflexivity. }
  destruct (Z.eqb_spec (is_event_enabled EVENT_RMDIR) 0) as [En|En]; cbn.
  - split; [reflexivity|]. split; [intros _ Hne; contradiction|].
    intros _; split; reflexivity.
  - split; [reflexivity|]. split; [intros _ _; split; reflexivity|].
    intros [Hf|Hz]; [discriminate|contradiction].
Qed.
End Return_probe_kind.

(** ** The hook, run symbolically *)

Section Hook.
Context `{C : Constants} `{K : Collaborators} {OK : ConstantsOK}.

Lemma peek_deletion_entry (tid : Z) (w : world) (s : syscall_cache_t) :
  syscalls w !! tid = Some s ->
  type s = SYSCALL_RMDIR \/ type s = SYSCALL_UNLINK ->
  peek_syscall tid (Z.lor SYSCALL_RMDIR SYSCALL_UNLINK) w = (Some s, w).
Proof.
  intros E Hty. apply peek_syscall_pending; [exact E|].
  apply deletion_types_match, Hty.
Qed.

Lemma hook_untracked (tid : Z) (ctx : pt_regs) (w : world) :
  syscalls w !! tid = None ->
  kprobe__security_inode_rmdir tid ctx w = (0, w).
Proof.
  intros E. unfold kprobe__security_inode_rmdir, bind.
  rewrite (peek_syscall_None _ _ _ E). reflexivity.
Qed.

(** The idempotency guard: an entry whose inode is already set stops the
    hook before it touches anything. *)
Lemma hook_resolved (tid : Z) (ctx : pt_regs) (w : world) (s : syscall_cache_t) :
  syscalls w !! tid = Some s ->
  (type s = SYSCALL_RMDIR /\ ino (path_key (rmdir s)) <> 0) \/
  (type s = SYSCALL_UNLINK /\ ino (path_key (unlink s)) <> 0) ->
  kprobe__security_inode_rmdir tid ctx w = (0, w).
Proof.
  intros E Hs.
  assert (Hty : type s = SYSCALL_RMDIR \/ type s = SYSCALL_UNLINK) by tauto.
  unfold kprobe__security_inode_rmdir, bind at 1.
  rewrite (peek_deletion_entry _ _ _ E Hty).
  unfold resolve_switch, bind, ret, c_true.
  pose proof SYSCALL_RMDIR_UNLINK as Hne.
  destruct Hs as [[Ht Hi] | [Ht Hi]]; rewrite Ht.
  - rewrite Z.eqb_refl. apply Z.eqb_neq in Hi. rewrite Hi. reflexivity.
  - destruct (Z.eqb_spec SYSCALL_UNLINK SYSCALL_RMDIR) as [Eq|_];
      [symmetry in Eq; contradiction|].
    rewrite Z.eqb_refl. apply Z.eqb_neq in Hi. rewrite Hi. reflexivity.
Qed.

(** A first run of the hook on a deletion entry: the identity is frozen,
    the discard filter is asked, and path resolution follows unless the
    filter discards. *)
Lemma hook_fresh (tid : Z) (ctx : pt_regs) (w : world) (s : syscall_cache_t) :
  syscalls w !! tid = Some s ->
  type s = SYSCALL_RMDIR \/ type s = SYSCALL_UNLINK ->
  ino (path_key (member s)) = 0 ->
  let d := PT_REGS_PARM2 ctx in
  kprobe__security_inode_rmdir tid ctx w =
    (0, {| syscalls :=
             if negb (process_discards s) && path_discards s d
             then delete tid (syscalls w)
             else <[tid := frozen s d]> (syscalls w);
           discarder_revisions := discarder_revisions w;
           trace := trace w ++ hook_calls s d |}).
Proof.
  intros E Hty Hino d.
  unfold kprobe__security_inode_rmdir, bind at 1.
  rewrite (peek_deletion_entry _ _ _ E Hty).
  pose proof SYSCALL_RMDIR_UNLINK as Hne.
  pose proof SYSCALL_RMDIR_pos as Hr. pose proof SYSCALL_UNLINK_pos as Hu.
  unfold hook_calls, process_discards, path_discards, effective_event_type,
    event_type_of.
  assert (Hpop : forall w0 : world,
             syscalls w0 !! tid = Some (frozen s d) ->
             pop_syscall tid (type s) w0 =
               (Some (frozen s d),
                {| syscalls := delete tid (syscalls w0);
                   discarder_revisions := discarder_revisions w0;
                   trace := trace w0 |})).
  { intros w0 E0. apply pop_syscall_pending; [exact E0|].
    change (type (frozen s d)) with (type s).
    apply land_diag_pos. destruct Hty as [-> | ->]; assumption. }
  assert (Hfin : forall w0 : world,
             syscalls w0 = <[tid := frozen s d]> (syscalls w) ->
             (let (_, w') := pop_syscall tid (type s) w0 in (0, w')) =
             (0, {| syscalls := delete tid (syscalls w);
                    discarder_revisions := discarder_revisions w0;
                    trace := trace w0 |})).
  { intros w0 E0. rewrite Hpop; [|rewrite E0; apply lookup_insert_eq].
    rewrite E0, delete_insert_eq. reflexivity. }
  destruct Hty as [Ht | Ht].
  - unfold resolve_switch, rmdir, c_true. rewrite Ht, Z.eqb_refl, Hino.
    change (0 =? 0) with true. cbn [negb].
    run_probe. fold d.
    change (set_rmdir_overlay_numlower (get_overlay_numlower d)
              (set_rmdir_path_key (set_path_key_inode d (path_key (member s)) 1) s))
      with (frozen s d).
    change (policy (frozen s d)) with (policy s).
    change (type (frozen s d)) with (type s).
    rewrite insert_insert_eq.
    destruct (mode (policy s) =? NO_FILTER); cbn [negb];
      (destruct (negb (discarded_by_process _ _ =? 0)); cbn [negb andb fst snd trace app];
       [rewrite <- !app_assoc; reflexivity|]);
      (destruct (d =? NULL); cbn [negb andb fst snd trace app];
       [rewrite <- !app_assoc; reflexivity|]);
      (destruct (resolve_dentry _ _ _ =? DENTRY_DISCARDED);
       cbn [fst snd trace app syscalls discarder_revisions];
       [|rewrite <- !app_assoc; reflexivity]);
      (rewrite Hfin by reflexivity;
       cbn [syscalls discarder_revisions trace];
       rewrite <- !app_assoc; reflexivity).
  - unfold resolve_switch, unlink, c_true. rewrite Ht.
    destruct (Z.eqb_spec SYSCALL_UNLINK SYSCALL_RMDIR) as [Eq|_];
      [symmetry in Eq; contradiction|].
    rewrite Z.eqb_refl, Hino.
    change (0 =? 0) with true. cbn [negb].
    run_probe. fold d.
    change (set_unlink_overlay_numlower (get_overlay_numlower d)
              (set_unlink_path_key (set_path_key_inode d (path_key (member s)) 1) s))
      with (frozen s d).
    change (policy (frozen s d)) with (policy s).
    change (type (frozen s d)) with (type s).
    rewrite insert_insert_eq.
    destruct (mode (policy s) =? NO_FILTER); cbn [negb];
      (destruct (negb (discarded_by_process _ _ =? 0)); cbn [negb andb fst snd trace app];
       [rewrite <- !app_assoc; reflexivity|]);
      (destruct (d =? NULL); cbn [negb andb fst snd trace app];
       [rewrite <- !app_assoc; reflexivity|]);
      (destruct (resolve_dentry _ _ _ =? DENTRY_DISCARDED);
       cbn [fst snd trace app syscalls discarder_revisions];
       [|rewrite <- !app_assoc; reflexivity]);
      (rewrite Hfin by reflexivity;
       cbn [syscalls discarder_revisions trace];
       rewrite <- !app_assoc; reflexivity).
Qed.
Lemma hook_fresh_calls (tid : Z) (ctx : pt_regs) (w : world) (s : syscall_cache_t) :
  syscalls w !! tid = Some s ->
  type s = SYSCALL_RMDIR \/ type s = SYSCALL_UNLINK ->
  ino (path_key (member s)) = 0 ->
  calls_since w (snd (kprobe__security_inode_rmdir tid ctx w)) =
    hook_calls s (PT_REGS_PARM2 ctx).
Proof.
  intros E Hty Hino. rewrite (hook_fresh _ ctx _ _ E Hty Hino). cbn [snd].
  apply calls_since_app. reflexivity.
Qed.

(** C3: once the inode of a tracked entry is non-zero, a further run of the
    hook returns at the guard.  The world is left as it was: the entry keeps
    its identity and overlay depth, the discard filter is not asked and path
    resolution is not triggered; hence running the hook again after such a
    run gives what one run gives. *)
Theorem idempotent_resolution
    (tid : Z) (ctx ctx' : pt_regs) (w : world) (s : syscall_cache_t) :
  syscalls w !! tid = Some s ->
  (type s = SYSCALL_RMDIR /\ ino (path_key (rmdir s)) <> 0) \/
  (type s = SYSCALL_UNLINK /\ ino (path_key (unlink s)) <> 0) ->
  let w' := snd (kprobe__security_inode_rmdir tid ctx w) in
  w' = w /\
  syscalls w' !! tid = Some s /\
  discard_checks (calls_since w w') = [] /\
  path_resolutions (calls_since w w') = [] /\
  kprobe__security_inode_rmdir tid ctx' w' = kprobe__security_inode_rmdir tid ctx w.
Proof.
  intros E Hs w'. subst w'.
  rewrite (hook_resolved _ ctx _ _ E Hs). cbn [snd].
  rewrite calls_since_refl.
  repeat split; try assumption.
  apply (hook_resolved _ ctx' _ _ E Hs).
Qed.

(** X11: if a first run of the hook resolves a fresh deletion entry to a
    non-zero inode, a second run of the hook, with whatever registers,
    changes nothing, whether the first run kept the entry or removed it. *)
Lemma resolution_twice_is_once
    (tid : Z) (ctx ctx' : pt_regs) (w : world) (s : syscall_cache_t) :
  syscalls w !! tid = Some s ->
  type s = SYSCALL_RMDIR \/ type s = SYSCALL_UNLINK ->
  ino (path_key (member s)) = 0 ->
  ino (set_path_key_inode (PT_REGS_PARM2 ctx) (path_key (member s)) 1) <> 0 ->
  let w1 := snd (kprobe__security_inode_rmdir tid ctx w) in
  kprobe__security_inode_rmdir tid ctx' w1 = (0, w1).
Proof.
  intros E Hty Hino Hres w1. subst w1.
  rewrite (hook_fresh _ ctx _ _ E Hty Hino). cbn [snd].
  destruct (negb (process_discards s) && path_discards s (PT_REGS_PARM2 ctx)).
  - apply hook_untracked. cbn [syscalls]. apply lookup_delete_eq.
  - apply (hook_resolved _ _ _ (frozen s (PT_REGS_PARM2 ctx))).
    + cbn [syscalls]. apply lookup_insert_eq.
    + change (type (frozen s (PT_REGS_PARM2 ctx))) with (type s).
      unfold rmdir, unlink. cbn [frozen set_overlay_numlower set_path_key member path_key].
      destruct Hty; [left | right]; split; assumption.
Qed.

(** C8: on a first run over a deletion entry with a non-null handle, when
    the process discard filter does not discard, the hook calls path
    resolution exactly once, with the identity it has just frozen in the
    entry and with the event kind of the operation, or 0 under
    [NO_FILTER]. *)
Theorem path_resolution_gets_effective_kind
    (tid : Z) (ctx : pt_regs) (w : world) (s : syscall_cache_t) :
  syscalls w !! tid = Some s ->
  type s = SYSCALL_RMDIR \/ type s = SYSCALL_UNLINK ->
  ino (path_key (member s)) = 0 ->
  PT_REGS_PARM2 ctx <> NULL ->
  let d := PT_REGS_PARM2 ctx in
  let et := if type s =? SYSCALL_RMDIR then EVENT_RMDIR else EVENT_UNLINK in
  let k := set_path_key_inode d (path_key (member s)) 1 in
  discarded_by_process (mode (policy s)) et = 0 ->
  let w' := snd (kprobe__security_inode_rmdir tid ctx w) in
  path_resolutions (calls_since w w') =
    [(d, k, if mode (policy s) =? NO_FILTER then 0 else et)] /\
  (resolve_dentry d k (if mode (policy s) =? NO_FILTER then 0 else et)
     <> DENTRY_DISCARDED ->
   path_key <$> (member <$> syscalls w' !! tid) = Some k).
Proof.
  intros E Hty Hino Hd d et k Hdisc w'. subst w'.
  rewrite (hook_fresh_calls _ ctx _ _ E Hty Hino).
  rewrite (hook_fresh _ ctx _ _ E Hty Hino). cbn [snd syscalls].
  unfold hook_calls, process_discards, path_discards, effective_event_type,
    event_type_of, c_true.
  fold d et. rewrite Hdisc.
  change (path_key (member (frozen s d))) with k.
  apply Z.eqb_neq in Hd. fold d in Hd. rewrite Hd.
  change (0 =? 0) with true. cbn [negb andb app].
  split.
  - destruct (_ =? DENTRY_DISCARDED); reflexivity.
  - intros Hr. apply Z.eqb_neq in Hr. rewrite Hr.
    rewrite lookup_insert_eq. reflexivity.
Qed.

(** C1: the entry probe, the hook and the return probe run in this order
    on one thread that had no entry pending.  If the discard filter does not
    discard, path resolution does not discard, the return code is not an
    unhandled error and [EVENT_RMDIR] is enabled, exactly one event reaches
    the sink, tagged [EVENT_RMDIR], and no entry is left pending. *)
Theorem exactly_once_emission
    (tid : Z) (ctx_hook ctx_ret : pt_regs) (w : world) :
  syscalls w !! tid = None ->
  let pm := mode (fetch_policy EVENT_RMDIR) in
  let d := PT_REGS_PARM2 ctx_hook in
  let k := set_path_key_inode d zero_path_key 1 in
  discarded_by_process pm EVENT_RMDIR = 0 ->
  resolve_dentry d k (if pm =? NO_FILTER then 0 else EVENT_RMDIR) <> DENTRY_DISCARDED ->
  IS_UNHANDLED_ERROR (int_of_reg (PT_REGS_RC ctx_ret)) = false ->
  is_event_enabled EVENT_RMDIR <> 0 ->
  let w1 := snd (SYSCALL_KPROBE0_rmdir tid w) in
  let w2 := snd (kprobe__security_inode_rmdir tid ctx_hook w1) in
  let w3 := snd (SYSCALL_KRETPROBE_rmdir tid ctx_ret w2) in
  length (sent_events (calls_since w w3)) = 1%nat /\
  (forall e, e ∈ sent_events (calls_since w w3) -> fst e = EVENT_RMDIR) /\
  syscalls w3 !! tid = None.
Proof.
  intros Hfree pm d k Hdisc Hpath Herr Hen w1 w2 w3.
  set (s0 := {| type := SYSCALL_RMDIR; policy := fetch_policy EVENT_RMDIR;
                member := zero_member |}).
  assert (W1 : w1 = {| syscalls := <[tid := s0]> (syscalls w);
                       discarder_revisions := discarder_revisions w;
                       trace := trace w |}).
  { subst w1. run_probe. rewrite Hfree. reflexivity. }
  assert (E1 : syscalls w1 !! tid = Some s0).
  { rewrite W1. cbn [syscalls]. apply lookup_insert_eq. }
  assert (Hty : type s0 = SYSCALL_RMDIR \/ type s0 = SYSCALL_UNLINK)
    by (left; reflexivity).
  assert (Hino : ino (path_key (member s0)) = 0) by reflexivity.
  assert (Hpd : process_discards s0 = false).
  { unfold process_discards, event_type_of, c_true. cbn [type s0 policy].
    rewrite Z.eqb_refl. fold pm. rewrite Hdisc. reflexivity. }
  assert (Hqd : path_discards s0 d = false).
  { unfold path_discards, effective_event_type, event_type_of.
    cbn [type s0 policy]. rewrite Z.eqb_refl. fold pm.
    change (path_key (member (frozen s0 d))) with k.
    apply Z.eqb_neq in Hpath. rewrite Hpath. apply andb_false_r. }
  assert (W2 : w2 = {| syscalls := <[tid := frozen s0 d]> (syscalls w1);
                       discarder_revisions := discarder_revisions w1;
                       trace := trace w1 ++ hook_calls s0 d |}).
  { subst w2. rewrite (hook_fresh _ ctx_hook _ _ E1 Hty Hino). fold d.
    rewrite Hpd, Hqd. reflexivity. }
  assert (E2 : syscalls w2 !! tid = Some (frozen s0 d)).
  { rewrite W2. cbn [syscalls]. apply lookup_insert_eq. }
  assert (Hpop : fst (pop_syscall tid (Z.lor SYSCALL_RMDIR SYSCALL_UNLINK) w2)
                 = Some (frozen s0 d)).
  { apply pop_deletion_entry; [exact E2 | left; reflexivity]. }
  assert (W3 : trace w3 = trace w ++ hook_calls s0 d ++
                 return_calls (frozen s0 d) (int_of_reg (PT_REGS_RC ctx_ret))
                   (revision_of w2 (mount_id (path_key (rmdir (frozen s0 d)))) + 1)).
  { subst w3. rewrite (kretprobe_popped _ ctx_ret _ _ Hpop). cbn [snd trace].
    rewrite W2. cbn [trace]. rewrite W1. cbn [trace].
    rewrite <- app_assoc. reflexivity. }
  rewrite (calls_since_app _ _ _ W3).
  assert (Hsent : forall rv rev,
             sent_events (hook_calls s0 d ++ return_calls (frozen s0 d) rv rev) =
             sent_events (return_calls (frozen s0 d) rv rev)).
  { intros rv rev. unfold sent_events. rewrite omap_app.
    unfold hook_calls. rewrite Hpd, Hqd. destruct (d =? NULL); reflexivity. }
  rewrite Hsent. unfold return_calls. rewrite Herr.
  unfold c_true. apply Z.eqb_neq in Hen. rewrite Hen. cbn.
  split; [reflexivity|]. split.
  - intros e He. apply list_elem_of_singleton in He. subst e. reflexivity.
  - subst w3. rewrite (kretprobe_popped _ ctx_ret _ _ Hpop). cbn [snd syscalls].
    apply lookup_delete_eq.
Qed.


(** X9: discard by path resolution ends the tracking: the hook invalidates
    the inode cache once, with flag 1, and removes the entry, so the return
    probe finds nothing to pop and does nothing; no event is sent. *)
Lemma path_discard_short_circuits_exit
    (tid : Z) (ctx_hook ctx_ret : pt_regs) (w : world) (s : syscall_cache_t) :
  syscalls w !! tid = Some s ->
  type s = SYSCALL_RMDIR \/ type s = SYSCALL_UNLINK ->
  ino (path_key (member s)) = 0 ->
  process_discards s = false ->
  path_discards s (PT_REGS_PARM2 ctx_hook) = true ->
  let k := path_key (member (frozen s (PT_REGS_PARM2 ctx_hook))) in
  let w1 := snd (kprobe__security_inode_rmdir tid ctx_hook w) in
  let w2 := snd (SYSCALL_KRETPROBE_rmdir tid ctx_ret w1) in
  syscalls w1 !! tid = None /\
  fst (pop_syscall tid (Z.lor SYSCALL_RMDIR SYSCALL_UNLINK) w1) = None /\
  w2 = w1 /\
  sent_events (calls_since w w2) = [] /\
  invalidations (calls_since w w2) = [(mount_id k, ino k, 1)].
Proof.
  intros E Hty Hino Hpd Hqd k w1 w2.
  assert (W1 : w1 = {| syscalls := delete tid (syscalls w);
                       discarder_revisions := discarder_revisions w;
                       trace := trace w ++ hook_calls s (PT_REGS_PARM2 ctx_hook) |}).
  { subst w1. rewrite (hook_fresh _ ctx_hook _ _ E Hty Hino).
    rewrite Hpd, Hqd. reflexivity. }
  assert (E1 : syscalls w1 !! tid = None).
  { rewrite W1. cbn [syscalls]. apply lookup_delete_eq. }
  assert (Hpop : fst (pop_syscall tid (Z.lor SYSCALL_RMDIR SYSCALL_UNLINK) w1) = None).
  { rewrite (pop_syscall_None _ _ _ E1). reflexivity. }
  assert (W2 : w2 = w1).
  { subst w2. rewrite (kretprobe_nothing_pending _ ctx_ret _ Hpop). reflexivity. }
  repeat split; try assumption.
  - rewrite W2, W1. erewrite calls_since_app by reflexivity.
    unfold hook_calls. rewrite Hpd, Hqd.
    unfold path_discards in Hqd. destruct (PT_REGS_PARM2 ctx_hook =? NULL);
      [discriminate|]. reflexivity.
  - rewrite W2, W1. erewrite calls_since_app by reflexivity.
    unfold hook_calls. rewrite Hpd, Hqd.
    unfold path_discards in Hqd. destruct (PT_REGS_PARM2 ctx_hook =? NULL);
      [discriminate|]. reflexivity.
Qed.
End Hook.

(** ** Discarder revisions *)

Section Revisions.
Context `{C : Constants}.



(** The entry probe and the hook send nothing and leave the revisions. *)
Lemma entry_quiet (K : Collaborators) (tid : Z) (w : world) :
  let w' := snd (SYSCALL_KPROBE0_rmdir tid w) in
  trace w' = trace w /\ discarder_revisions w' = discarder_revisions w.
Proof.
  run_probe. destruct (syscalls w !! tid); split; reflexivity.
Qed.




End Revisions.

(** X12: when the process filter discards a fresh deletion entry, the hook
    invalidates the inode cache once, with flag 1, for the identity it has
    just frozen, never calls path resolution, and returns; the frozen entry
    stays in the table, where the return probe will find it. *)
Lemma process_discard_keeps_entry
    `{C : Constants} `{K : Collaborators} {OK : ConstantsOK}
    (tid : Z) (ctx : pt_regs) (w : world) (s : syscall_cache_t) :
  syscalls w !! tid = Some s ->
  type s = SYSCALL_RMDIR \/ type s = SYSCALL_UNLINK ->
  ino (path_key (member s)) = 0 ->
  process_discards s = true ->
  let d := PT_REGS_PARM2 ctx in
  let k := path_key (member (frozen s d)) in
  let w1 := snd (kprobe__security_inode_rmdir tid ctx w) in
  invalidations (calls_since w w1) = [(mount_id k, ino k, 1)] /\
  path_resolutions (calls_since w w1) = [] /\
  fst (pop_syscall tid (Z.lor SYSCALL_RMDIR SYSCALL_UNLINK) w1) = Some (frozen s d).
Proof.
  intros E Hty Hino Hpd d k w1. subst w1.
  rewrite (hook_fresh_calls _ ctx _ _ E Hty Hino).
  rewrite (hook_fresh _ ctx _ _ E Hty Hino). cbn [snd]. fold d.
  unfold hook_calls. rewrite Hpd. cbn [negb andb].
  split; [reflexivity|]. split; [reflexivity|].
  apply pop_deletion_entry.
  - cbn [syscalls]. apply lookup_insert_eq.
  - exact Hty.
Qed.

(** ** The statements at sample inputs *)

Lemma ex_constants_ok : @ConstantsOK ex_constants.
Proof. split; cbn; lia. Qed.

(** C4, as stated, fails: thread 1 completes a removal of (mount 5,
    inode 100) under [NO_FILTER] with return code 0 and the event kind
    enabled; one event is sent and the invalidation carries flag 0. *)
Lemma exit_flag_is_zero_when_event_sent :
  let K := ex_kernel 0 0 0 1 in
  let w := ex_world (ex_resolved_entry 8 0) 41 in
  let l := calls_since w
             (snd (@SYSCALL_KRETPROBE_rmdir ex_constants K 1 (ex_ctx 0) w)) in
  sent_events l =
    [(7, {| event := 0; process := 12; container := 13;
            syscall := {| retval := 0 |};
            file := {| inode := 100; file_mount_id := 5;
                       file_overlay_numlower := 2; file_path_id := 1 |};
            discarder_revision := 42; padding := 0 |})] /\
  invalidations l = [(5, 100, 0)].
Proof. vm_compute. split; reflexivity. Qed.

(** The same run, read through the amended statement. *)
Lemma exit_invalidates_with_negated_flag_witness :
  let K := ex_kernel 0 0 0 1 in
  let w := ex_world (ex_resolved_entry 8 0) 41 in
  let l := calls_since w
             (snd (@SYSCALL_KRETPROBE_rmdir ex_constants K 1 (ex_ctx 0) w)) in
  invalidations l = [(5, 100, 0)].
Proof.
  intros K w l.
  apply (@exit_invalidates_with_negated_flag ex_constants K 1 (ex_ctx 0) w
           (ex_resolved_entry 8 0)); [reflexivity | reflexivity | cbn; lia].
Defined.

(** A tracked unlink of (mount 5, inode 100) returns -2, an unhandled
    error: no event, one invalidation with flag 0. *)
Lemma error_suppresses_emission_witness :
  let K := ex_kernel 0 0 0 1 in
  let w := ex_world (ex_resolved_entry 4 0) 41 in
  let w' := snd (@SYSCALL_KRETPROBE_rmdir ex_constants K 1 (ex_ctx ex_rc_error) w) in
  sent_events (calls_since w w') = [] /\
  bumps (calls_since w w') = [] /\
  discarder_revisions w' = discarder_revisions w /\
  invalidations (calls_since w w') = [(5, 100, 0)].
Proof.
  intros K w w'.
  apply (@error_suppresses_emission ex_constants K 1 (ex_ctx ex_rc_error) w
           (ex_resolved_entry 4 0)); reflexivity.
Defined.

(** Entry, hook and return on thread 1, nothing discarded, return code 0,
    kind enabled: one event. *)
Lemma exactly_once_emission_witness :
  let K := ex_kernel 0 0 0 1 in
  let w1 := snd (@SYSCALL_KPROBE0_rmdir ex_constants K 1 ex_empty) in
  let w2 := snd (@kprobe__security_inode_rmdir ex_constants K 1 (ex_ctx 0) w1) in
  let w3 := snd (@SYSCALL_KRETPROBE_rmdir ex_constants K 1 (ex_ctx 0) w2) in
  length (sent_events (calls_since ex_empty w3)) = 1%nat /\
  (forall e, e ∈ sent_events (calls_since ex_empty w3) -> fst e = 7) /\
  syscalls w3 !! 1 = None.
Proof.
  intros K.
  apply (@exactly_once_emission ex_constants K ex_constants_ok 1 (ex_ctx 0) (ex_ctx 0)
           ex_empty); cbn; first [reflexivity | lia].
Defined.

(** The hook fires a second time for a tracked unlink already resolved to
    inode 100: nothing changes. *)
Lemma idempotent_resolution_witness :
  let K := ex_kernel 1 0 0 1 in
  let w := ex_world (ex_resolved_entry 4 1) 41 in
  let w' := snd (@kprobe__security_inode_rmdir ex_constants K 1 (ex_ctx 0) w) in
  w' = w /\
  syscalls w' !! 1 = Some (ex_resolved_entry 4 1) /\
  discard_checks (calls_since w w') = [] /\
  path_resolutions (calls_since w w') = [] /\
  @kprobe__security_inode_rmdir ex_constants K 1 (ex_ctx 0) w' =
  @kprobe__security_inode_rmdir ex_constants K 1 (ex_ctx 0) w.
Proof.
  intros K w.
  apply (@idempotent_resolution ex_constants K ex_constants_ok 1 (ex_ctx 0) (ex_ctx 0)
           w (ex_resolved_entry 4 1)).
  - reflexivity.
  - right. cbn. split; [reflexivity | lia].
Defined.

(** A fresh rmdir entry under an active filter (mode 1): path resolution is
    called with [EVENT_RMDIR]. *)
Lemma path_resolution_gets_effective_kind_witness :
  let K := ex_kernel 1 0 0 1 in
  let w := ex_world (ex_fresh_entry 8 1) 41 in
  let w' := snd (@kprobe__security_inode_rmdir ex_constants K 1 (ex_ctx 0) w) in
  path_resolutions (calls_since w w') =
    [(4096, {| ino := 100; mount_id := 5; path_id := 1 |}, 7)].
Proof.
  intros K w.
  apply (@path_resolution_gets_effective_kind ex_constants K ex_constants_ok 1
           (ex_ctx 0) w (ex_fresh_entry 8 1)).
  - reflexivity.
  - left. reflexivity.
  - reflexivity.
  - unfold NULL. cbn. lia.
  - reflexivity.
Defined.


(** C5, as stated, fails: thread 1 enters rmdir and returns with code 0
    without the hook having run; the return probe pops the entry, sends an
    event for inode 0, bumps the revision of mount 0 and invalidates. *)
Lemma unresolved_entry_still_emits :
  let K := ex_kernel 0 0 0 1 in
  let w1 := snd (@SYSCALL_KPROBE0_rmdir ex_constants K 1 ex_empty) in
  let w2 := snd (@SYSCALL_KRETPROBE_rmdir ex_constants K 1 (ex_ctx 0) w1) in
  let l := calls_since w1 w2 in
  fst (pop_syscall 1 (Z.lor 8 4) w1) =
    Some {| type := 8; policy := {| mode := 0 |}; member := zero_member |} /\
  sent_events l =
    [(7, {| event := 0; process := 12; container := 13;
            syscall := {| retval := 0 |};
            file := {| inode := 0; file_mount_id := 0;
                       file_overlay_numlower := 0; file_path_id := 0 |};
            discarder_revision := 1; padding := 0 |})] /\
  invalidations l = [(0, 0, 0)] /\
  bumps l = [0].
Proof. vm_compute. repeat split. Qed.

(** The same entry with return code -2, an unhandled error: popped, one
    invalidation with flag 0, nothing sent or bumped. *)
Lemma unresolved_entry_is_popped_and_processed_witness :
  let K := ex_kernel 0 0 0 1 in
  let w1 := snd (@SYSCALL_KPROBE0_rmdir ex_constants K 1 ex_empty) in
  let w2 := snd (@SYSCALL_KRETPROBE_rmdir ex_constants K 1 (ex_ctx ex_rc_error) w1) in
  let l := calls_since w1 w2 in
  fst (pop_syscall 1 (Z.lor 8 4) w1) =
    Some {| type := 8; policy := {| mode := 0 |}; member := zero_member |} /\
  syscalls w2 !! 1 = None /\
  invalidations l = [(0, 0, 0)] /\
  sent_events l = [] /\ bumps l = [].
Proof.
  intros K w1 w2 l.
  destruct (@unresolved_entry_is_popped_and_processed ex_constants K ex_constants_ok
              1 (ex_ctx ex_rc_error) ex_empty eq_refl) as (H1 & H2 & H3 & _ & H5).
  split; [exact H1|]. split; [exact H2|]. split; [exact H3|].
  apply H5. left. reflexivity.
Defined.



(** ** The process discard filter and the pending entry *)

(** C2 at a failing input: thread 1 holds a fresh rmdir entry on mount 5
    under an active filter (mode 1); the process discard filter discards.
    The hook invalidates (5, 100) and returns, leaving the entry in the
    table; the return probe then pops it, sends an event and invalidates
    (5, 100) a second time. *)
Lemma process_discard_leaves_entry_pending :
  let K := ex_kernel 1 1 0 1 in
  let w := ex_world (ex_fresh_entry 8 1) 41 in
  let w1 := snd (@kprobe__security_inode_rmdir ex_constants K 1 (ex_ctx 0) w) in
  let w2 := snd (@SYSCALL_KRETPROBE_rmdir ex_constants K 1 (ex_ctx 0) w1) in
  discard_checks (calls_since w w1) = [(1, 7)] /\
  invalidations (calls_since w w1) = [(5, 100, 1)] /\
  fst (pop_syscall 1 (Z.lor 8 4) w1) = Some (ex_resolved_entry 8 1) /\
  sent_events (calls_since w1 w2) =
    [(7, {| event := 0; process := 12; container := 13;
            syscall := {| retval := 0 |};
            file := {| inode := 100; file_mount_id := 5;
                       file_overlay_numlower := 2; file_path_id := 1 |};
            discarder_revision := 42; padding := 0 |})] /\
  invalidations (calls_since w w2) = [(5, 100, 1); (5, 100, 0)].
Proof. vm_compute. repeat split. Qed.

(** ** Further properties of the hook *)

Section Hook_all_inputs.
Context `{C : Constants} `{K : Collaborators}.

(** Every run of the hook, case by case: the calls it appends. *)
Lemma hook_calls_shape (tid : Z) (ctx : pt_regs) (w : world) :
  let w' := snd (kprobe__security_inode_rmdir tid ctx w) in
  exists l, trace w' = trace w ++ l /\
    discarder_revisions w' = discarder_revisions w /\
    sent_events l = [] /\ bumps l = [] /\ enabled_checks l = [] /\
    (length (discard_checks l) <= 1)%nat /\
    (length (path_resolutions l) <= 1)%nat /\
    (length (invalidations l) <= 1)%nat /\
    Forall (fun x => snd x = 1) (invalidations l) /\
    Forall (fun x => fst (fst x) = PT_REGS_PARM2 ctx /\ fst (fst x) <> NULL)
           (path_resolutions l).
Proof.
  run_probe. unfold peek_syscall, pop_syscall, set_syscalls, NULL.
  change (0 =? 0) with true. cbn [negb].
  destruct (syscalls w !! tid) as [s|];
    [|exists []; rewrite app_nil_r; cbn; repeat split; auto].
  destruct (Z.land (type s) _ >? 0);
    [|exists []; rewrite app_nil_r; cbn; repeat split; auto].
  cbn [fst snd].
  repeat match goal with
         | |- context [0 =? 0] =>
             change (0 =? 0) with true;
             cbn [fst snd syscalls discarder_revisions trace negb]
         | |- context [if ?b then _ else _] =>
             destruct b eqn:?; cbn [fst snd syscalls discarder_revisions trace negb]
         | |- context [match ?o with Some _ => _ | None => _ end] =>
             destruct o; cbn [fst snd syscalls discarder_revisions trace]
         end;
    first [ exists []; rewrite app_nil_r; cbn; repeat split; auto; fail
          | eexists; split; [rewrite <- ?app_assoc; reflexivity|];
            cbn; repeat split; auto;
            repeat constructor; cbn;
            match goal with
            | H : negb (?d =? 0) = true |- ?d <> 0 =>
                apply Z.eqb_neq; apply negb_true_iff; exact H
            end ].
Qed.

(** X1: the hook never sends an event, never bumps a discarder revision and
    never asks whether an event kind is enabled, whatever the thread, the
    registers and the state; the revisions are left as they were. *)
Theorem hook_never_emits (tid : Z) (ctx : pt_regs) (w : world) :
  let w' := snd (kprobe__security_inode_rmdir tid ctx w) in
  sent_events (calls_since w w') = [] /\
  bumps (calls_since w w') = [] /\
  enabled_checks (calls_since w w') = [] /\
  discarder_revisions w' = discarder_revisions w.
Proof.
  destruct (hook_calls_shape tid ctx w) as (l & Ht & Hr & Hs & Hb & He & _).
  cbn zeta. rewrite (calls_since_app _ _ _ Ht). auto.
Qed.

(** X2: one run of the hook asks the process discard filter at most once,
    resolves a path at most once and invalidates the inode cache at most
    once; an invalidation it makes carries flag 1, and a path resolution it
    triggers is for the handle in the second parameter register, which is
    then not null. *)
Theorem hook_call_bounds (tid : Z) (ctx : pt_regs) (w : world) :
  let l := calls_since w (snd (kprobe__security_inode_rmdir tid ctx w)) in
  (length (discard_checks l) <= 1)%nat /\
  (length (path_resolutions l) <= 1)%nat /\
  (length (invalidations l) <= 1)%nat /\
  Forall (fun x => snd x = 1) (invalidations l) /\
  Forall (fun x => fst (fst x) = PT_REGS_PARM2 ctx /\ fst (fst x) <> NULL)
         (path_resolutions l).
Proof.
  destruct (hook_calls_shape tid ctx w)
    as (l & Ht & _ & _ & _ & _ & H1 & H2 & H3 & H4 & H5).
  cbn zeta. rewrite (calls_since_app _ _ _ Ht). auto.
Qed.
End Hook_all_inputs.

(** ** The table of in-flight syscalls under the probes *)

Section Table.
Context `{C : Constants} `{K : Collaborators}.

(** What a run of the hook does to the table: nothing, or, for an entry
    whose inode was not set, the entry is replaced by its frozen form or
    removed. *)
Lemma hook_table_shape (tid : Z) (ctx : pt_regs) (w : world) :
  let w' := snd (kprobe__security_inode_rmdir tid ctx w) in
  syscalls w' = syscalls w \/
  exists s, syscalls w !! tid = Some s /\ ino (path_key (member s)) = 0 /\
    (syscalls w' = <[tid := frozen s (PT_REGS_PARM2 ctx)]> (syscalls w) \/
     syscalls w' = delete tid (syscalls w)).
Proof.
  run_probe. unfold peek_syscall, pop_syscall, set_syscalls, NULL.
  destruct (syscalls w !! tid) as [s|] eqn:E; [|left; reflexivity].
  destruct (Z.land (type s) _ >? 0); [|left; reflexivity].
  cbn [fst snd].
  repeat match goal with
         | |- context [0 =? 0] =>
             change (0 =? 0) with true;
             cbn [fst snd syscalls discarder_revisions trace negb]
         | |- context [if ?b then _ else _] =>
             destruct b eqn:?; cbn [fst snd syscalls discarder_revisions trace negb]
         | |- context [match ?o with Some _ => _ | None => _ end] =>
             destruct o; cbn [fst snd syscalls discarder_revisions trace]
         end;
    first [ left; reflexivity
          | right; exists s; split; [reflexivity|]; split;
            [ match goal with
              | H : c_true _ = false |- _ =>
                  unfold c_true, rmdir, unlink in H;
                  apply negb_false_iff, Z.eqb_eq in H; exact H
              end
            | rewrite ?insert_insert_eq, ?delete_insert_eq;
              first [left; reflexivity | right; reflexivity] ] ].
Qed.

Lemma peek_None_pop_None (tid mask : Z) (w : world) :
  fst (peek_syscall tid mask w) = None <-> fst (pop_syscall tid mask w) = None.
Proof.
  unfold peek_syscall, pop_syscall.
  destruct (syscalls w !! tid) as [s|]; [|tauto].
  destruct (_ >? _); cbn; tauto.
Qed.

Lemma hook_nothing_tracked (tid : Z) (ctx : pt_regs) (w : world) :
  fst (peek_syscall tid (Z.lor SYSCALL_RMDIR SYSCALL_UNLINK) w) = None ->
  kprobe__security_inode_rmdir tid ctx w = (0, w).
Proof.
  unfold kprobe__security_inode_rmdir, bind, peek_syscall.
  destruct (syscalls w !! tid) as [s|]; [|reflexivity].
  destruct (_ >? _); [discriminate|reflexivity].
Qed.

(** A probe that runs on one thread leaves the entry of every other
    thread as it was; this holds for the entry probe, the hook and the
    return probe, on every path. *)
Theorem probes_leave_other_threads (tid tid' : Z) (ctx : pt_regs) (w : world) :
  tid' <> tid ->
  syscalls (snd (SYSCALL_KPROBE0_rmdir tid w)) !! tid' = syscalls w !! tid' /\
  syscalls (snd (kprobe__security_inode_rmdir tid ctx w)) !! tid' = syscalls w !! tid' /\
  syscalls (snd (SYSCALL_KRETPROBE_rmdir tid ctx w)) !! tid' = syscalls w !! tid'.
Proof.
  intros Hne. assert (Hne' : tid <> tid') by congruence.
  split; [|split].
  - run_probe. destruct (syscalls w !! tid); cbn [snd syscalls]; [reflexivity|].
    apply lookup_insert_ne. exact Hne'.
  - destruct (hook_table_shape tid ctx w) as [-> | (s & _ & _ & [-> | ->])].
    + reflexivity.
    + apply lookup_insert_ne. exact Hne'.
    + apply lookup_delete_ne. exact Hne'.
  - destruct (fst (pop_syscall tid (Z.lor SYSCALL_RMDIR SYSCALL_UNLINK) w))
      as [s|] eqn:Hpop.
    + rewrite (kretprobe_popped _ ctx _ _ Hpop). cbn [snd syscalls].
      apply lookup_delete_ne. exact Hne'.
    + rewrite (kretprobe_nothing_pending _ ctx _ Hpop). reflexivity.
Qed.

(** X3: the hook never creates an entry, never changes the kind or the
    policy of one, and never drops or alters an entry whose inode is
    already set.  If the thread has no entry before the run it has none
    after; an entry with a non-zero inode is still in the table after the
    run, exactly as it was, whatever its kind; and any entry found after
    the run has the kind and the policy of the entry before, being either
    that entry or that entry with the path key and overlay depth resolved
    from the handle. *)
Theorem hook_keeps_kind_and_policy (tid : Z) (ctx : pt_regs) (w : world) :
  let w' := snd (kprobe__security_inode_rmdir tid ctx w) in
  (syscalls w !! tid = None -> syscalls w' !! tid = None) /\
  (forall s, syscalls w !! tid = Some s ->
     (ino (path_key (member s)) <> 0 -> syscalls w' !! tid = Some s) /\
     (forall s', syscalls w' !! tid = Some s' ->
        type s' = type s /\ policy s' = policy s /\
        (s' = s \/ s' = frozen s (PT_REGS_PARM2 ctx)))).
Proof.
  cbn zeta.
  destruct (hook_table_shape tid ctx w) as [-> | (s0 & E0 & Hino & [-> | ->])].
  - split; [auto|]. intros s E. split; [auto|].
    intros s' E'. rewrite E in E'. injection E' as <-. auto.
  - split; [rewrite E0; discriminate|].
    intros s E. rewrite E0 in E. injection E as <-.
    split; [intros Hn; contradiction|].
    rewrite lookup_insert_eq. intros s' [= <-].
    split; [reflexivity|]. split; [reflexivity|]. right. reflexivity.
  - split; [rewrite E0; discriminate|].
    intros s E. rewrite E0 in E. injection E as <-.
    split; [intros Hn; contradiction|].
    rewrite lookup_delete_eq. discriminate.
Qed.

(** X4: when the thread has no entry, or one of a kind outside the mask,
    the hook and the return probe do nothing: no helper is called and the
    state, that entry included, is unchanged. *)
Theorem untracked_probes_do_nothing (tid : Z) (ctx : pt_regs) (w : world) :
  fst (peek_syscall tid (Z.lor SYSCALL_RMDIR SYSCALL_UNLINK) w) = None ->
  kprobe__security_inode_rmdir tid ctx w = (0, w) /\
  SYSCALL_KRETPROBE_rmdir tid ctx w = (0, w).
Proof.
  intros Hpeek. split.
  - apply hook_nothing_tracked. exact Hpeek.
  - apply kretprobe_nothing_pending. apply peek_None_pop_None. exact Hpeek.
Qed.

(** X5: whenever the return probe pops an entry it removes it from the
    table on every path; it sends at most one event, bumps the revision of
    exactly the mounts of the events it sends, and its last helper call is
    its only invalidation, for the identity of the entry. *)
Theorem return_probe_consumes_entry
    (tid : Z) (ctx : pt_regs) (w : world) (s : syscall_cache_t) :
  fst (pop_syscall tid (Z.lor SYSCALL_RMDIR SYSCALL_UNLINK) w) = Some s ->
  let w' := snd (SYSCALL_KRETPROBE_rmdir tid ctx w) in
  let l := calls_since w w' in
  syscalls w' = delete tid (syscalls w) /\
  (length (sent_events l) <= 1)%nat /\
  bumps l = event_mounts l /\
  (exists f, last l = Some (Call_invalidate_inode (mount_id (path_key (rmdir s)))
                              (ino (path_key (rmdir s))) f) /\
             invalidations l = [(mount_id (path_key (rmdir s)),
                                 ino (path_key (rmdir s)), f)]).
Proof.
  intros Hpop w' l. subst l w'.
  rewrite (kretprobe_calls _ ctx _ _ Hpop).
  rewrite (kretprobe_popped _ ctx _ _ Hpop). cbn [snd syscalls].
  split; [reflexivity|].
  unfold return_calls, event_mounts.
  destruct (IS_UNHANDLED_ERROR _); cbn.
  { split; [lia|]. split; [reflexivity|]. eexists. split; reflexivity. }
  destruct (c_true (is_event_enabled EVENT_RMDIR)); cbn.
  - split; [lia|]. split; [reflexivity|]. eexists. split; reflexivity.
  - split; [lia|]. split; [reflexivity|]. eexists. split; reflexivity.
Qed.

(** X6: after a run of the return probe the thread has no deletion entry
    left, whatever happened in the run: a hook or a second return probe on
    that thread does nothing until the entry probe runs again. *)
Theorem return_leaves_nothing_tracked (tid : Z) (ctx ctx' : pt_regs) (w : world) :
  let w' := snd (SYSCALL_KRETPROBE_rmdir tid ctx w) in
  fst (peek_syscall tid (Z.lor SYSCALL_RMDIR SYSCALL_UNLINK) w') = None /\
  kprobe__security_inode_rmdir tid ctx' w' = (0, w') /\
  SYSCALL_KRETPROBE_rmdir tid ctx' w' = (0, w').
Proof.
  cbn zeta.
  assert (Hpeek : fst (peek_syscall tid (Z.lor SYSCALL_RMDIR SYSCALL_UNLINK)
                         (snd (SYSCALL_KRETPROBE_rmdir tid ctx w))) = None).
  { destruct (fst (pop_syscall tid (Z.lor SYSCALL_RMDIR SYSCALL_UNLINK) w))
      as [s|] eqn:Hpop.
    - rewrite (kretprobe_popped _ ctx _ _ Hpop). cbn [snd].
      unfold peek_syscall. cbn [syscalls]. rewrite lookup_delete_eq. reflexivity.
    - rewrite (kretprobe_nothing_pending _ ctx _ Hpop). cbn [snd].
      apply peek_None_pop_None. exact Hpop. }
  split; [exact Hpeek|]. split.
  - apply hook_nothing_tracked. exact Hpeek.
  - apply kretprobe_nothing_pending. apply peek_None_pop_None. exact Hpeek.
Qed.
End Table.

(** ** The return code in the event *)

Lemma int_of_reg_range (r : Z) : - 2 ^ 31 <= int_of_reg r < 2 ^ 31.
Proof.
  unfold int_of_reg.
  pose proof (Z.mod_pos_bound (r + 2 ^ 31) (2 ^ 32) ltac:(reflexivity)) as H.
  change (2 ^ 32) with (2 * 2 ^ 31) in *. lia.
Qed.

Lemma int_of_reg_signed (v : Z) :
  - 2 ^ 31 <= v < 2 ^ 31 -> int_of_reg (v mod 2 ^ 64) = v.
Proof.
  intros Hv. unfold int_of_reg.
  assert (E : (v mod 2 ^ 64 + 2 ^ 31) mod 2 ^ 32 = (v + 2 ^ 31) mod 2 ^ 32).
  { rewrite Z.add_mod by discriminate.
    rewrite (Z.mod_mod_divide v (2 ^ 64) (2 ^ 32))
      by (exists (2 ^ 32); reflexivity).
    rewrite <- Z.add_mod by discriminate. reflexivity. }
  rewrite E. rewrite Z.mod_small.
  - lia.
  - change (2 ^ 32) with (2 * 2 ^ 31). lia.
Qed.

Section Return_code.
Context `{C : Constants} `{K : Collaborators}.

(** X8: an event sent by the return probe carries the return register
    narrowed to a signed 32-bit integer, the very value that was classified
    as not an unhandled error; a register holding the 64-bit two's
    complement of [v] gives back [v]. *)
Theorem event_retval_is_narrowed
    (tid : Z) (ctx : pt_regs) (w : world) (s : syscall_cache_t)
    (k : Z) (ev : rmdir_event_t) :
  fst (pop_syscall tid (Z.lor SYSCALL_RMDIR SYSCALL_UNLINK) w) = Some s ->
  (k, ev) ∈ sent_events (calls_since w (snd (SYSCALL_KRETPROBE_rmdir tid ctx w))) ->
  retval (syscall ev) = int_of_reg (PT_REGS_RC ctx) /\
  - 2 ^ 31 <= retval (syscall ev) < 2 ^ 31 /\
  IS_UNHANDLED_ERROR (retval (syscall ev)) = false /\
  (forall v, - 2 ^ 31 <= v < 2 ^ 31 -> PT_REGS_RC ctx = v mod 2 ^ 64 ->
             retval (syscall ev) = v).
Proof.
  intros Hpop. rewrite (kretprobe_calls _ ctx _ _ Hpop).
  unfold return_calls.
  destruct (IS_UNHANDLED_ERROR (int_of_reg (PT_REGS_RC ctx))) eqn:Herr; cbn.
  { intros Hin. exfalso. eapply not_elem_of_nil. exact Hin. }
  destruct (c_true (is_event_enabled EVENT_RMDIR)); cbn.
  2:{ intros Hin. exfalso. eapply not_elem_of_nil. exact Hin. }
  intros Hin. apply list_elem_of_singleton in Hin. injection Hin as -> ->.
  cbn [event_of syscall retval].
  split; [reflexivity|]. split; [apply int_of_reg_range|]. split; [exact Herr|].
  intros v Hv ->. apply int_of_reg_signed. exact Hv.
Qed.
End Return_code.

(** ** Any interleaving of probe runs *)

Section Sequences.
Context `{C : Constants}.

Lemma step_calls (K : Collaborators) (p : probe_call) (w : world) :
  exists l, trace (step K p w) = trace w ++ l /\
    Forall (fun e => fst e = EVENT_RMDIR) (sent_events l) /\
    bumps l = event_mounts l /\
    (length (sent_events l) <= match p with Return _ _ => 1 | _ => 0 end)%nat /\
    (length (invalidations l) <= 1)%nat.
Proof.
  destruct p as [tid | tid ctx | tid ctx]; cbn [step].
  - destruct (entry_quiet K tid w) as [Ht _].
    exists []. rewrite app_nil_r. cbn. repeat split; auto.
  - destruct (hook_calls_shape tid ctx w)
      as (l & Ht & _ & Hs & Hb & _ & _ & _ & Hi & _).
    exists l. split; [exact Ht|]. unfold event_mounts. rewrite Hs, Hb. cbn.
    repeat split; auto.
  - destruct (fst (pop_syscall tid (Z.lor SYSCALL_RMDIR SYSCALL_UNLINK) w))
      as [s|] eqn:Hpop.
    + rewrite (kretprobe_popped _ ctx _ _ Hpop). cbn [snd trace].
      eexists. split; [reflexivity|].
      unfold return_calls, event_mounts.
      destruct (IS_UNHANDLED_ERROR _); cbn; [repeat split; auto|].
      destruct (c_true (is_event_enabled EVENT_RMDIR)); cbn;
        repeat split; auto.
    + rewrite (kretprobe_nothing_pending _ ctx _ Hpop). cbn [snd].
      exists []. rewrite app_nil_r. cbn. repeat split; auto.
Qed.

Lemma run_calls (ps : list (Collaborators * probe_call)) :
  forall w : world,
  exists l, trace (run ps w) = trace w ++ l /\
    Forall (fun e => fst e = EVENT_RMDIR) (sent_events l) /\
    bumps l = event_mounts l /\
    (length (sent_events l) <= returns ps)%nat /\
    (length (invalidations l) <= length ps)%nat.
Proof.
  induction ps as [|[K p] ps IH]; intros w.
  - exists []. cbn. rewrite app_nil_r. repeat split; auto.
  - cbn [run].
    destruct (step_calls K p w) as (l1 & Ht1 & Hf1 & Hb1 & Hn1 & Hi1).
    destruct (IH (step K p w)) as (l2 & Ht2 & Hf2 & Hb2 & Hn2 & Hi2).
    exists (l1 ++ l2). split; [rewrite Ht2, Ht1, app_assoc; reflexivity|].
    unfold event_mounts, sent_events, bumps, invalidations in *.
    rewrite !omap_app, map_app, !length_app, Hb1, Hb2.
    split; [apply Forall_app; split; assumption|].
    split; [reflexivity|].
    split.
    + assert (returns ((K, p) :: ps) =
              (match p with Return _ _ => 1 | _ => 0 end + returns ps)%nat) as ->
        by (destruct p; reflexivity).
      lia.
    + cbn [length]. lia.
Qed.

(** X7: over any interleaving of probe runs of any threads, every event
    sent is tagged [EVENT_RMDIR]; the revision is bumped once per event, for
    the mount the event names and in the same order; there are at most as
    many events as runs of the return probe, and at most one invalidation
    per probe run. *)
Theorem run_events_invariant (ps : list (Collaborators * probe_call)) (w : world) :
  let l := calls_since w (run ps w) in
  Forall (fun e => fst e = EVENT_RMDIR) (sent_events l) /\
  bumps l = event_mounts l /\
  (length (sent_events l) <= returns ps)%nat /\
  (length (invalidations l) <= length ps)%nat.
Proof.
  destruct (run_calls ps w) as (l & Ht & H).
  cbn zeta. rewrite (calls_since_app _ _ _ Ht). exact H.
Qed.
End Sequences.

(** ** The further properties at sample inputs *)

(** The return probe runs on thread 2; the entry of thread 1 stays. *)
Lemma probes_leave_other_threads_witness :
  let K := ex_kernel 0 0 0 1 in
  syscalls (snd (@SYSCALL_KPROBE0_rmdir ex_constants K 2 ex_two_threads)) !! 1 =
    syscalls ex_two_threads !! 1 /\
  syscalls (snd (@kprobe__security_inode_rmdir ex_constants K 2 (ex_ctx 0)
                   ex_two_threads)) !! 1 = syscalls ex_two_threads !! 1 /\
  syscalls (snd (@SYSCALL_KRETPROBE_rmdir ex_constants K 2 (ex_ctx 0)
                   ex_two_threads)) !! 1 = syscalls ex_two_threads !! 1.
Proof.
  intros K.
  apply (@probes_leave_other_threads ex_constants K 2 1 (ex_ctx 0) ex_two_threads).
  lia.
Defined.

(** Thread 1 holds an unlink entry already resolved to inode 100 under a
    filter that discards and a path resolution that discards: the entry is
    still there after the hook, unchanged.  A fresh rmdir entry keeps its
    kind and policy when the hook freezes its identity. *)
Lemma hook_keeps_kind_and_policy_witness :
  (let K := ex_kernel 1 1 1 1 in
   let w := ex_world (ex_resolved_entry 4 1) 41 in
   syscalls (snd (@kprobe__security_inode_rmdir ex_constants K 1 (ex_ctx 0) w)) !! 1 =
     Some (ex_resolved_entry 4 1)) /\
  (let K := ex_kernel 1 0 0 1 in
   let w := ex_world (ex_fresh_entry 8 1) 41 in
   forall s', syscalls (snd (@kprobe__security_inode_rmdir ex_constants K 1
                               (ex_ctx 0) w)) !! 1 = Some s' ->
              type s' = 8 /\ policy s' = {| mode := 1 |} /\
              (s' = ex_fresh_entry 8 1 \/
               s' = @frozen K (ex_fresh_entry 8 1) 4096)).
Proof.
  split.
  - intros K w.
    destruct (proj2 (@hook_keeps_kind_and_policy ex_constants K 1 (ex_ctx 0) w)
                (ex_resolved_entry 4 1) eq_refl) as [H _].
    apply H. cbn. lia.
  - intros K w.
    destruct (proj2 (@hook_keeps_kind_and_policy ex_constants K 1 (ex_ctx 0) w)
                (ex_fresh_entry 8 1) eq_refl) as [_ H].
    exact H.
Defined.

(** Thread 1 holds an entry of another syscall (type 1): both probes leave
    everything as it is. *)
Lemma untracked_probes_do_nothing_witness :
  let K := ex_kernel 0 0 0 1 in
  @kprobe__security_inode_rmdir ex_constants K 1 (ex_ctx 0) ex_two_threads =
    (0, ex_two_threads) /\
  @SYSCALL_KRETPROBE_rmdir ex_constants K 1 (ex_ctx 0) ex_two_threads =
    (0, ex_two_threads).
Proof.
  intros K.
  apply (@untracked_probes_do_nothing ex_constants K 1 (ex_ctx 0) ex_two_threads).
  reflexivity.
Defined.

(** A resolved rmdir entry, return code 0, kind enabled. *)
Lemma return_probe_consumes_entry_witness :
  let K := ex_kernel 0 0 0 1 in
  let w := ex_world (ex_resolved_entry 8 0) 41 in
  let w' := snd (@SYSCALL_KRETPROBE_rmdir ex_constants K 1 (ex_ctx 0) w) in
  let l := calls_since w w' in
  syscalls w' = delete 1 (syscalls w) /\
  (length (sent_events l) <= 1)%nat /\
  bumps l = event_mounts l /\
  (exists f, last l = Some (Call_invalidate_inode 5 100 f) /\
             invalidations l = [(5, 100, f)]).
Proof.
  intros K w.
  apply (@return_probe_consumes_entry ex_constants K 1 (ex_ctx 0) w
           (ex_resolved_entry 8 0)).
  reflexivity.
Defined.

(** The register holds -13 as a 64-bit word, a handled error: the event
    carries -13. *)
Lemma event_retval_is_narrowed_witness :
  let K := ex_kernel 0 0 0 1 in
  let ev := {| event := 0; process := 12; container := 13;
               syscall := {| retval := -13 |};
               file := {| inode := 100; file_mount_id := 5;
                          file_overlay_numlower := 2; file_path_id := 1 |};
               discarder_revision := 42; padding := 0 |} in
  retval (syscall ev) = int_of_reg ex_rc_eacces /\
  - 2 ^ 31 <= retval (syscall ev) < 2 ^ 31 /\
  @IS_UNHANDLED_ERROR ex_constants (retval (syscall ev)) = false /\
  (forall v, - 2 ^ 31 <= v < 2 ^ 31 -> ex_rc_eacces = v mod 2 ^ 64 ->
             retval (syscall ev) = v).
Proof.
  intros K ev.
  apply (@event_retval_is_narrowed ex_constants K 1 (ex_ctx ex_rc_eacces)
           (ex_world (ex_resolved_entry 8 0) 41) (ex_resolved_entry 8 0) 7 ev).
  - reflexivity.
  - vm_compute. constructor.
Defined.

(** Path resolution answers [DENTRY_DISCARDED] for a fresh rmdir entry. *)
Lemma path_discard_short_circuits_exit_witness :
  let K := ex_kernel 1 0 1 1 in
  let w := ex_world (ex_fresh_entry 8 1) 41 in
  let w1 := snd (@kprobe__security_inode_rmdir ex_constants K 1 (ex_ctx 0) w) in
  let w2 := snd (@SYSCALL_KRETPROBE_rmdir ex_constants K 1 (ex_ctx 0) w1) in
  syscalls w1 !! 1 = None /\
  fst (pop_syscall 1 (Z.lor 8 4) w1) = None /\
  w2 = w1 /\
  sent_events (calls_since w w2) = [] /\
  invalidations (calls_since w w2) = [(5, 100, 1)].
Proof.
  intros K w.
  apply (@path_discard_short_circuits_exit ex_constants K ex_constants_ok 1
           (ex_ctx 0) (ex_ctx 0) w (ex_fresh_entry 8 1)).
  - reflexivity.
  - left. reflexivity.
  - reflexivity.
  - reflexivity.
  - reflexivity.
Defined.


(** The hook runs twice on a fresh rmdir entry that resolves to inode 100. *)
Lemma resolution_twice_is_once_witness :
  let K := ex_kernel 1 0 0 1 in
  let w := ex_world (ex_fresh_entry 8 1) 41 in
  let w1 := snd (@kprobe__security_inode_rmdir ex_constants K 1 (ex_ctx 0) w) in
  @kprobe__security_inode_rmdir ex_constants K 1 (ex_ctx 7) w1 = (0, w1).
Proof.
  intros K w.
  apply (@resolution_twice_is_once ex_constants K ex_constants_ok 1
           (ex_ctx 0) (ex_ctx 7) w (ex_fresh_entry 8 1)).
  - reflexivity.
  - left. reflexivity.
  - reflexivity.
  - cbn. lia.
Defined.

(** The process filter discards a fresh rmdir entry on mount 5. *)
Lemma process_discard_keeps_entry_witness :
  let K := ex_kernel 1 1 0 1 in
  let w := ex_world (ex_fresh_entry 8 1) 41 in
  let w1 := snd (@kprobe__security_inode_rmdir ex_constants K 1 (ex_ctx 0) w) in
  invalidations (calls_since w w1) = [(5, 100, 1)] /\
  path_resolutions (calls_since w w1) = [] /\
  fst (pop_syscall 1 (Z.lor 8 4) w1) = Some (ex_resolved_entry 8 1).
Proof.
  intros K w.
  apply (@process_discard_keeps_entry ex_constants K ex_constants_ok 1
           (ex_ctx 0) w (ex_fresh_entry 8 1)).
  - reflexivity.
  - left. reflexivity.
  - reflexivity.
  - reflexivity.
Defined.
